(** * knative.dev/pkg/apis/duck/v1: the Addressable duck type

    A shallow embedding of [apis/duck/v1/addressable_types.go] and the
    properties of its data model, its conformance hooks and its JSON
    form.

    Conventions of the embedding:
    - a nilable pointer stored in a struct field ([*string], [*apis.URL],
      [*Addressable]) is an [option]: [None] is [nil], [Some v] a pointer
      to [v].  The package never writes through such a pointer, so the
      pointee is kept in place of its address;
    - a slice is an [option (list _)]: [None] is the nil slice;
    - a method receiver and the data word of an interface value are
      addresses into a store of objects, and every method is a function
      of the store (it returns its result and the store it leaves, or
      panics). *)

From Stdlib Require Import Ascii String.
From stdpp Require Import base option list strings gmap.

Local Open Scope string_scope.

(** ** Types as the runtime names them *)

Module reflect.

Inductive Type_ : Set :=
| Basic (name : string)
| Named (pkg name : string)
| Pointer (elem : Type_)
| Slice (elem : Type_).

(** [reflect.Type.String]: the package-qualified name [fmt] prints
    for the verb [%T]. *)
Fixpoint String_ (t : Type_) : string :=
  match t with
  | Basic name => name
  | Named pkg name => pkg +:+ "." +:+ name
  | Pointer elem => "*" +:+ String_ elem
  | Slice elem => "[]" +:+ String_ elem
  end.

(** A field of a struct declaration: its name, its type and the value
    of the [json] key of its tag. *)
Record StructField : Set :=
  { FieldName : string; FieldType : Type_; FieldTag : string }.

End reflect.

(** ** The store *)

Definition loc := positive.

(** A pointer: [None] is [nil]. *)
Definition ptr := option loc.

(** An interface value: the nil interface, or a dynamic type with its
    data pointer (which may itself be nil). *)
Inductive iface : Set :=
| NilIface
| Iface (dyn : reflect.Type_) (data : ptr).

(** The Go [error] interface, reduced to what a caller observes:
    [nil], or an error with its message. *)
Inductive error : Set :=
| NoError
| Error (msg : string).

Module strings_.

Fixpoint HasPrefix (s prefix : string) {struct prefix} : bool :=
  match prefix, s with
  | EmptyString, _ => true
  | String p prefix', String c s' => Ascii.eqb c p && HasPrefix s' prefix'
  | String _ _, EmptyString => false
  end.

Fixpoint Contains (s substr : string) : bool :=
  HasPrefix s substr ||
  match s with
  | EmptyString => false
  | String _ s' => Contains s' substr
  end.

(** [strings.Count] for a one-byte separator. *)
Fixpoint Count (s : string) (sep : ascii) : nat :=
  match s with
  | EmptyString => 0
  | String c s' => (if Ascii.eqb c sep then 1 else 0) + Count s' sep
  end.

(** [strings.Cut] for a one-byte separator: the text before and after
    its first occurrence. *)
Fixpoint Cut (s : string) (sep : ascii) : option (string * string) :=
  match s with
  | EmptyString => None
  | String c s' =>
      if Ascii.eqb c sep then Some (EmptyString, s')
      else match Cut s' sep with
           | Some (before, after) => Some (String c before, after)
           | None => None
           end
  end.

(** The lower-case form of an ASCII letter; any other byte is itself. *)
Definition lower (c : ascii) : ascii :=
  let n := nat_of_ascii c in
  if (65 <=? n)%nat && (n <=? 90)%nat then ascii_of_nat (n + 32) else c.

(** Whether a byte is the one numbered [n]. *)
Definition isByte (n : nat) (c : ascii) : bool := Nat.eqb (nat_of_ascii c) n.

(** The least member of each letter's class under simple case folding,
    for the classes that hold an ASCII letter: an ASCII letter folds to
    its lower case, and so do the two letters outside ASCII that fold to
    one, U+017F (the long s, bytes C5 BF) to [s] and U+212A (the Kelvin
    sign, bytes E2 84 AA) to [k].  Every other byte is kept, so the
    folding decides [strings.EqualFold] whenever one side is ASCII. *)
Fixpoint Fold (s : string) : string :=
  match s with
  | EmptyString => EmptyString
  | String c rest =>
      match rest with
      | String c1 rest1 =>
          if isByte 197 c && isByte 191 c1 then String "s" (Fold rest1)
          else
            match rest1 with
            | String c2 rest2 =>
                if isByte 226 c && isByte 132 c1 && isByte 170 c2
                then String "k" (Fold rest2)
                else String (lower c) (Fold rest)
            | EmptyString => String (lower c) (Fold rest)
            end
      | EmptyString => String (lower c) EmptyString
      end
  end.

Definition EqualFold (s t : string) : bool :=
  String.eqb (Fold s) (Fold t).

End strings_.

(** ** [fmt]: the fragment the package uses *)

Module fmt.

(** The verb [%T]: the dynamic type of the operand, [<nil>] for the
    nil interface. *)
Definition verbT (arg : iface) : string :=
  match arg with
  | NilIface => "<nil>"
  | Iface dyn _ => reflect.String_ dyn
  end.

(** One operand under the verb [c].  Only [%T] is given its meaning;
    any other verb is outside the fragment and is rendered as a
    bad-verb marker naming the operand's type. *)
Definition printArg (c : ascii) (arg : iface) : string :=
  if Ascii.eqb c "T" then verbT arg
  else "%!" +:+ String c ("(" +:+ verbT arg +:+ ")").

Fixpoint Sprintf (format : string) (args : list iface) : string :=
  match format with
  | EmptyString => EmptyString
  | String c rest =>
      if Ascii.eqb c "%" then
        match rest with
        | EmptyString => "%!(NOVERB)"
        | String v rest' =>
            if Ascii.eqb v "%" then String "%" (Sprintf rest' args)
            else match args with
                 | [] => "%!" +:+ String v ("(MISSING)" +:+ Sprintf rest' [])
                 | arg :: args' => printArg v arg +:+ Sprintf rest' args'
                 end
        end
      else String c (Sprintf rest args)
  end.

Definition Errorf (format : string) (args : list iface) : error :=
  Error (Sprintf format args).

End fmt.

(** ** Types the package imports *)

Module apis.

(** Modelled from the spec: the declaration of [apis.URL] is outside
    the file; the data model gives it a scheme, a host, a path, a
    query and a fragment.  The file itself writes [Scheme] and [Host]. *)
Record URL : Set :=
  { Scheme : string; Host : string; Path : string;
    Query : string; Fragment : string }.

(** The zero value of the struct, which a composite literal completes
    the fields it names with. *)
Definition zero : URL :=
  {| Scheme := ""; Host := ""; Path := ""; Query := ""; Fragment := "" |}.

End apis.

Module schema.

Record GroupVersion : Set := { gv_Group : string; gv_Version : string }.

Record GroupVersionKind : Set :=
  { Group : string; Version : string; Kind : string }.

(** [schema.ParseGroupVersion]: the empty string and ["/"] are the
    empty group and version, a text without a slash is a version of the
    core group, one slash separates group from version, and more than
    one is an error ([None]). *)
Definition ParseGroupVersion (gv : string) : option GroupVersion :=
  if String.eqb gv "" || String.eqb gv "/" then
    Some {| gv_Group := ""; gv_Version := "" |}
  else
    match strings_.Count gv "/" with
    | 0 => Some {| gv_Group := ""; gv_Version := gv |}
    | 1 =>
        match strings_.Cut gv "/" with
        | Some (g, v) => Some {| gv_Group := g; gv_Version := v |}
        | None => None
        end
    | _ => None
    end.

Definition FromAPIVersionAndKind (apiVersion kind : string) : GroupVersionKind :=
  match ParseGroupVersion apiVersion with
  | Some gv => {| Group := gv_Group gv; Version := gv_Version gv; Kind := kind |}
  | None => {| Group := ""; Version := ""; Kind := kind |}
  end.

End schema.

Module metav1.

Record TypeMeta : Set := { Kind : string; APIVersion : string }.

(** The part of [metav1.ObjectMeta] the data model names: name,
    namespace, resource version, labels and annotations. *)
Record ObjectMeta : Type :=
  { Name : string; Namespace : string; ResourceVersion : string;
    Labels : gmap string string; Annotations : gmap string string }.

Record ListMeta : Set := { ListResourceVersion : string; Continue : string }.

Definition zeroTypeMeta : TypeMeta := {| Kind := ""; APIVersion := "" |}.

Definition zeroObjectMeta : ObjectMeta :=
  {| Name := ""; Namespace := ""; ResourceVersion := "";
     Labels := ∅; Annotations := ∅ |}.

Definition zeroListMeta : ListMeta :=
  {| ListResourceVersion := ""; Continue := "" |}.

(** [func (obj *TypeMeta) GroupVersionKind() schema.GroupVersionKind] *)
Definition GroupVersionKind (obj : TypeMeta) : schema.GroupVersionKind :=
  schema.FromAPIVersionAndKind (APIVersion obj) (Kind obj).

End metav1.

(** ** The structs of the package *)

Record Addressable : Set :=
  { Name : option string;
    URL : option apis.URL;
    CACerts : option string;
    Audience : option string }.

Record AddressStatus : Set :=
  { Address : option Addressable;
    Addresses : option (list Addressable) }.

Record AddressableType : Type :=
  { TypeMeta : metav1.TypeMeta;
    ObjectMeta : metav1.ObjectMeta;
    Status : AddressStatus }.

Record AddressableTypeList : Type :=
  { ListTypeMeta : metav1.TypeMeta;
    ListMeta : metav1.ListMeta;
    Items : option (list AddressableType) }.

(** The zero values: what [Addressable{}], [AddressStatus{}],
    [AddressableType{}] and [AddressableTypeList{}] denote. *)
Definition zeroAddressable : Addressable :=
  {| Name := None; URL := None; CACerts := None; Audience := None |}.

Definition zeroAddressStatus : AddressStatus :=
  {| Address := None; Addresses := None |}.

Definition zeroAddressableType : AddressableType :=
  {| TypeMeta := metav1.zeroTypeMeta;
     ObjectMeta := metav1.zeroObjectMeta;
     Status := zeroAddressStatus |}.

Definition zeroAddressableTypeList : AddressableTypeList :=
  {| ListTypeMeta := metav1.zeroTypeMeta;
     ListMeta := metav1.zeroListMeta;
     Items := None |}.

(** *** The declarations, field by field

    Each struct as the source declares it: the fields in order, with
    their types and [json] tags.  An embedded field is named after its
    type. *)

Definition T_string : reflect.Type_ := reflect.Basic "string".
Definition T_URL : reflect.Type_ := reflect.Named "apis" "URL".
Definition T_Addressable : reflect.Type_ := reflect.Named "v1" "Addressable".
Definition T_AddressStatus : reflect.Type_ := reflect.Named "v1" "AddressStatus".
Definition T_AddressableType : reflect.Type_ := reflect.Named "v1" "AddressableType".
Definition T_AddressableTypeList : reflect.Type_ :=
  reflect.Named "v1" "AddressableTypeList".
Definition T_TypeMeta : reflect.Type_ := reflect.Named "v1" "TypeMeta".
Definition T_ObjectMeta : reflect.Type_ := reflect.Named "v1" "ObjectMeta".
Definition T_ListMeta : reflect.Type_ := reflect.Named "v1" "ListMeta".

Inductive AddressableField : Set := FName | FURL | FCACerts | FAudience.

Definition Addressable_fields : list AddressableField :=
  [FName; FURL; FCACerts; FAudience].

Definition Addressable_decl (f : AddressableField) : reflect.StructField :=
  match f with
  | FName => reflect.Build_StructField "Name" (reflect.Pointer T_string) "name,omitempty"
  | FURL => reflect.Build_StructField "URL" (reflect.Pointer T_URL) "url,omitempty"
  | FCACerts =>
      reflect.Build_StructField "CACerts" (reflect.Pointer T_string) "CACerts,omitempty"
  | FAudience =>
      reflect.Build_StructField "Audience" (reflect.Pointer T_string) "audience,omitempty"
  end.

Inductive AddressStatusField : Set := FAddress | FAddresses.

Definition AddressStatus_fields : list AddressStatusField := [FAddress; FAddresses].

Definition AddressStatus_decl (f : AddressStatusField) : reflect.StructField :=
  match f with
  | FAddress =>
      reflect.Build_StructField "Address" (reflect.Pointer T_Addressable)
        "address,omitempty"
  | FAddresses =>
      reflect.Build_StructField "Addresses" (reflect.Slice T_Addressable)
        "addresses,omitempty"
  end.

Definition AddressableType_decl : list reflect.StructField :=
  [ reflect.Build_StructField "TypeMeta" T_TypeMeta ",inline";
    reflect.Build_StructField "ObjectMeta" T_ObjectMeta "metadata,omitempty";
    reflect.Build_StructField "Status" T_AddressStatus "status" ].

Definition AddressableTypeList_decl : list reflect.StructField :=
  [ reflect.Build_StructField "TypeMeta" T_TypeMeta ",inline";
    reflect.Build_StructField "ListMeta" T_ListMeta "metadata";
    reflect.Build_StructField "Items" (reflect.Slice T_AddressableType) "items" ].

(** The type of the field called [name] in a declaration. *)
Definition fieldType (decl : list reflect.StructField) (name : string)
  : option reflect.Type_ :=
  reflect.FieldType <$>
    List.find (fun f => String.eqb (reflect.FieldName f) name) decl.

(** ** The store and the methods' monad *)

(** What an address of the store holds: a value of one of the package's
    struct types, or a value of a type declared elsewhere (a counterpart
    of a conversion, say), kept as its type and an uninterpreted
    representation. *)
Inductive Object : Type :=
| OAddressable (a : Addressable)
| OAddressableType (t : AddressableType)
| OAddressableTypeList (l : AddressableTypeList)
| OForeign (ty : reflect.Type_) (repr : string).

Abbreviation Store := (gmap loc Object).

(** A call returns a value and the store it leaves, or panics. *)
Inductive Outcome (A : Type) : Type :=
| Returns (a : A) (s : Store)
| Panics (reason : string).

Arguments Returns {A} a s.
Arguments Panics {A} reason.

Definition Go (A : Type) : Type := Store -> Outcome A.

Definition ret {A} (a : A) : Go A := fun s => Returns a s.

Definition bind {A B} (m : Go A) (k : A -> Go B) : Go B :=
  fun s =>
    match m s with
    | Returns a s' => k a s'
    | Panics reason => Panics reason
    end.

Notation "'do' x <- m ; k" := (bind m (fun x => k))
  (at level 10, x name, m at level 100, k at level 200).

Definition nilDereference : string :=
  "invalid memory address or nil pointer dereference".

(** [&T{...}]: a fresh address holding the value. *)
Definition new (o : Object) : Go loc :=
  fun s => let l := fresh (dom s) in Returns l (<[l := o]> s).

(** [*p] for a [*AddressableType].  A nil pointer panics; a dangling or
    ill-typed address, which a Go program cannot form, is given the same
    outcome. *)
Definition loadAddressableType (p : ptr) : Go AddressableType :=
  fun s =>
    match p with
    | Some l =>
        match s !! l with
        | Some (OAddressableType t) => Returns t s
        | _ => Panics nilDereference
        end
    | None => Panics nilDereference
    end.

(** An assignment through a [*AddressableType] that has been
    dereferenced. *)
Definition storeAddressableType (p : ptr) (t : AddressableType) : Go unit :=
  fun s =>
    match p with
    | Some l => Returns tt (<[l := OAddressableType t]> s)
    | None => Panics nilDereference
    end.

(** ** The methods *)

(** [GetFullType() ducktypes.Populatable], on a [*Addressable] receiver it
    does not name *)
Definition GetFullType (_ : ptr) : Go iface :=
  do p <- new (OAddressableType zeroAddressableType);
  ret (Iface (reflect.Pointer T_AddressableType) (Some p)).

(** [func (a *Addressable) ConvertTo(ctx context.Context, to apis.Convertible) error] *)
Definition ConvertTo (a : ptr) (ctx : iface) (to : iface) : Go error :=
  ret (fmt.Errorf "v1 is the highest known version, got: %T" [to]).

(** [func (a *Addressable) ConvertFrom(ctx context.Context, from apis.Convertible) error] *)
Definition ConvertFrom (a : ptr) (ctx : iface) (from : iface) : Go error :=
  ret (fmt.Errorf "v1 is the highest known version, got: %T" [from]).

(** [func (t *AddressableType) Populate()] *)
Definition Populate (t : ptr) : Go unit :=
  let name := "http" in
  do v <- loadAddressableType t;
  storeAddressableType t
    {| TypeMeta := TypeMeta v;
       ObjectMeta := ObjectMeta v;
       Status :=
         {| Address :=
              Some {| Name := Some name;
                      URL := Some {| apis.Scheme := "http";
                                     apis.Host := "foo.com";
                                     apis.Path := apis.Path apis.zero;
                                     apis.Query := apis.Query apis.zero;
                                     apis.Fragment := apis.Fragment apis.zero |};
                      CACerts := None;
                      Audience := None |};
            Addresses := None |} |}.

(** [func (t *AddressableType) GetGroupVersionKind() schema.GroupVersionKind] *)
Definition GetGroupVersionKind (t : ptr) : Go schema.GroupVersionKind :=
  do v <- loadAddressableType t;
  ret (metav1.GroupVersionKind (TypeMeta v)).

(** [GetListType() runtime.Object], on a [*AddressableType] receiver it
    does not name *)
Definition GetListType (_ : ptr) : Go iface :=
  do p <- new (OAddressableTypeList zeroAddressableTypeList);
  ret (Iface (reflect.Pointer T_AddressableTypeList) (Some p)).

(** ** Well-formed UTF-8 *)

Module utf8.

Definition between (lo hi : nat) (c : ascii) : bool :=
  (lo <=? nat_of_ascii c)%nat && (nat_of_ascii c <=? hi)%nat.

(** The width in bytes of the well-formed encoding the text starts
    with, as [utf8.DecodeRuneInString] finds it; [None] where it answers
    [RuneError] with width 1 (a byte that starts no encoding, a
    continuation byte out of range or missing, an over-long form, a
    surrogate). *)
Definition width (s : string) : option nat :=
  match s with
  | EmptyString => None
  | String s0 rest =>
      let b := nat_of_ascii s0 in
      if (b <? 128)%nat then Some 1
      else if (b <? 194)%nat then None
      else if (b <? 224)%nat then
        match rest with
        | String s1 _ => if between 128 191 s1 then Some 2 else None
        | EmptyString => None
        end
      else if (b <? 240)%nat then
        let lo := if (b =? 224)%nat then 160 else 128 in
        let hi := if (b =? 237)%nat then 159 else 191 in
        match rest with
        | String s1 (String s2 _) =>
            if between lo hi s1 && between 128 191 s2 then Some 3 else None
        | _ => None
        end
      else if (b <? 245)%nat then
        let lo := if (b =? 240)%nat then 144 else 128 in
        let hi := if (b =? 244)%nat then 143 else 191 in
        match rest with
        | String s1 (String s2 (String s3 _)) =>
            if between lo hi s1 && between 128 191 s2 && between 128 191 s3
            then Some 4 else None
        | _ => None
        end
      else None
  end.

(** U+FFFD, the replacement character, in UTF-8: EF BF BD. *)
Definition replacement : string :=
  String (ascii_of_nat 239) (String (ascii_of_nat 191)
    (String (ascii_of_nat 189) EmptyString)).



(** The text [encoding/json] writes and reads for a string: each
    well-formed encoding as it is, and U+FFFD in place of every byte
    that starts none. *)
Fixpoint coerceFrom (pending : nat) (s : string) : string :=
  match s with
  | EmptyString => EmptyString
  | String c rest =>
      match pending with
      | S k => String c (coerceFrom k rest)
      | 0 =>
          match width (String c rest) with
          | Some n => String c (coerceFrom (n - 1) rest)
          | None => replacement +:+ coerceFrom 0 rest
          end
      end
  end.

Definition Coerce (s : string) : string := coerceFrom 0 s.

End utf8.

(** ** The JSON form

    [encoding/json] applied to the declarations above.  A document is
    kept as its tree: an object is the sequence of its members in the
    order they are written. *)

Module json.

#[local] Set Warnings "-register-all".

Inductive Value : Set :=
| Null
| Bool (b : bool)
| Num (literal : string)
| Str (s : string)
| Arr (items : list Value)
| Obj (members : list (string * Value)).

(** The member names of an object, in order. *)
Definition keys (v : Value) : list string :=
  match v with
  | Obj members => map fst members
  | _ => []
  end.

(** A Go string as a JSON string, and back.  Text that is not
    well-formed UTF-8 is coerced on the way out and on the way in. *)
Definition encodeString (s : string) : Value := Str (utf8.Coerce s).

Definition decodeString (v : Value) : option string :=
  match v with
  | Str s => Some (utf8.Coerce s)
  | _ => None
  end.

(** The comma-separated parts of a tag. *)
Fixpoint splitComma (s : string) : list string :=
  match s with
  | EmptyString => [EmptyString]
  | String c s' =>
      if Ascii.eqb c "," then EmptyString :: splitComma s'
      else match splitComma s' with
           | part :: parts => String c part :: parts
           | [] => [String c EmptyString]
           end
  end.

(** [parseTag]: the name before the first comma, and the options
    after it. *)
Definition parseTag (tag : string) : string * list string :=
  match splitComma tag with
  | name :: options => (name, options)
  | [] => (EmptyString, [])
  end.

(** The member name of a field: the name its tag gives, or the name of
    the field when the tag gives none. *)
Definition memberName (f : reflect.StructField) : string :=
  let name := fst (parseTag (reflect.FieldTag f)) in
  if String.eqb name "" then reflect.FieldName f else name.

Definition omitEmpty (f : reflect.StructField) : bool :=
  existsb (String.eqb "omitempty") (snd (parseTag (reflect.FieldTag f))).

(** The member a struct field contributes to its object: none when the
    field is tagged [omitempty] and holds an empty value (a nil
    pointer, a slice of length 0). *)
Definition member (f : reflect.StructField) (empty : bool) (v : Value)
  : list (string * Value) :=
  if omitEmpty f && empty then [] else [(memberName f, v)].

(** The field a member name selects while decoding: the field whose
    member name is exactly that, or else one that matches it without
    regard to case. *)
Definition selectField {F : Type} (fields : list F)
    (decl : F -> reflect.StructField) (key : string) : option F :=
  match List.find (fun f => String.eqb (memberName (decl f)) key) fields with
  | Some f => Some f
  | None =>
      List.find (fun f => strings_.EqualFold (memberName (decl f)) key) fields
  end.

End json.

Definition isNil {A : Type} (p : option A) : bool :=
  match p with
  | Some _ => false
  | None => true
  end.

(** The length of a slice; the nil slice has length 0. *)
Definition len {A : Type} (s : option (list A)) : nat :=
  match s with
  | Some l => length l
  | None => 0
  end.

Section Encoding.

(** The text form of [apis.URL] ([String] and [ParseURL], which its
    [MarshalJSON] and [UnmarshalJSON] go through) is declared outside
    the file; it is a parameter here.  [URL_Parse] answers [None] for a
    text it rejects. *)
Variable URL_String : apis.URL -> string.
Variable URL_Parse : string -> option apis.URL.

Definition URL_MarshalJSON (u : apis.URL) : json.Value :=
  json.Str (URL_String u).

Definition URL_UnmarshalJSON (v : json.Value) : option apis.URL :=
  match v with
  | json.Str s => URL_Parse s
  | _ => None
  end.

(** A [*string] field: [null] for nil, the string otherwise; and
    back. *)
Definition encodeStringPtr (p : option string) : json.Value :=
  match p with
  | Some s => json.encodeString s
  | None => json.Null
  end.

Definition decodeStringPtr (v : json.Value) : option (option string) :=
  match v with
  | json.Null => Some None
  | _ => Some <$> json.decodeString v
  end.

Definition encodeURLPtr (p : option apis.URL) : json.Value :=
  match p with
  | Some u => URL_MarshalJSON u
  | None => json.Null
  end.

Definition decodeURLPtr (v : json.Value) : option (option apis.URL) :=
  match v with
  | json.Null => Some None
  | _ => Some <$> URL_UnmarshalJSON v
  end.

(** Whether a field of an [Addressable] is populated (its pointer is
    not nil). *)
Definition populated (f : AddressableField) (a : Addressable) : bool :=
  match f with
  | FName => negb (isNil (Name a))
  | FURL => negb (isNil (URL a))
  | FCACerts => negb (isNil (CACerts a))
  | FAudience => negb (isNil (Audience a))
  end.

Definition Addressable_encodeField (f : AddressableField) (a : Addressable)
  : json.Value :=
  match f with
  | FName => encodeStringPtr (Name a)
  | FURL => encodeURLPtr (URL a)
  | FCACerts => encodeStringPtr (CACerts a)
  | FAudience => encodeStringPtr (Audience a)
  end.

(** [json.Marshal] of an [Addressable]. *)
Definition Addressable_Marshal (a : Addressable) : json.Value :=
  json.Obj
    (flat_map
       (fun f =>
          json.member (Addressable_decl f) (negb (populated f a))
            (Addressable_encodeField f a))
       Addressable_fields).

(** Decoding one member into the field it selects.  [None] is a
    decoding error. *)
Definition Addressable_decodeField (f : AddressableField) (v : json.Value)
    (a : Addressable) : option Addressable :=
  match f with
  | FName =>
      x ← decodeStringPtr v;
      Some {| Name := x; URL := URL a; CACerts := CACerts a; Audience := Audience a |}
  | FURL =>
      x ← decodeURLPtr v;
      Some {| Name := Name a; URL := x; CACerts := CACerts a; Audience := Audience a |}
  | FCACerts =>
      x ← decodeStringPtr v;
      Some {| Name := Name a; URL := URL a; CACerts := x; Audience := Audience a |}
  | FAudience =>
      x ← decodeStringPtr v;
      Some {| Name := Name a; URL := URL a; CACerts := CACerts a; Audience := x |}
  end.

Definition Addressable_decodeMember (acc : option Addressable)
    (m : string * json.Value) : option Addressable :=
  a ← acc;
  match json.selectField Addressable_fields Addressable_decl (fst m) with
  | Some f => Addressable_decodeField f (snd m) a
  | None => Some a
  end.

(** [json.Unmarshal] of a document into the [Addressable] [a]: the
    members are decoded in order, a member no field answers to is
    skipped, and [null] leaves [a] as it is. *)
Definition Addressable_Unmarshal (v : json.Value) (a : Addressable)
  : option Addressable :=
  match v with
  | json.Obj members => fold_left Addressable_decodeMember members (Some a)
  | json.Null => Some a
  | _ => None
  end.

(** [json.Marshal] of an [AddressStatus]. *)
Definition AddressStatus_encodeField (f : AddressStatusField) (s : AddressStatus)
  : bool * json.Value :=
  match f with
  | FAddress =>
      (isNil (Address s),
       match Address s with
       | Some a => Addressable_Marshal a
       | None => json.Null
       end)
  | FAddresses =>
      (Nat.eqb (len (Addresses s)) 0,
       match Addresses s with
       | Some l => json.Arr (map Addressable_Marshal l)
       | None => json.Null
       end)
  end.

Definition AddressStatus_Marshal (s : AddressStatus) : json.Value :=
  json.Obj
    (flat_map
       (fun f =>
          let '(empty, v) := AddressStatus_encodeField f s in
          json.member (AddressStatus_decl f) empty v)
       AddressStatus_fields).

End Encoding.

(** ** Consumers and coverage *)

(** What a consumer that resolves a destination ends up with: nothing
    when the owner is not ready, or the addresses it selects from. *)
Inductive Resolution : Set :=
| NotReady
| SelectFrom (candidates : list Addressable).

(** Modelled from the spec: the consumer of an [AddressStatus] is
    outside the file.  If [addresses] is present and non-empty,
    [address] is ignored; otherwise, if [address] is present, it is the
    sole destination; if both are absent, the owner is not yet ready for
    delivery. *)
Definition resolveDestination (s : AddressStatus) : Resolution :=
  match Addresses s with
  | Some (b :: bs) => SelectFrom (b :: bs)
  | _ =>
      match Address s with
      | Some a => SelectFrom [a]
      | None => NotReady
      end
  end.

(** The fields the data model documents. *)
Inductive DocumentedField : Set :=
| DocName | DocURL | DocTrustBundle | DocAudience | DocAddress | DocAddresses.

(** The [Addressable] objects reachable from a skeleton: the scalar
    address and the elements of the list. *)
Definition reachableAddressables (t : AddressableType) : list Addressable :=
  option_list (Address (Status t)) ++ default [] (Addresses (Status t)).

(** A documented field is covered when it is not absent on at least one
    object reachable from the skeleton. *)
Definition covered (d : DocumentedField) (t : AddressableType) : bool :=
  match d with
  | DocName => existsb (fun a => negb (isNil (Name a))) (reachableAddressables t)
  | DocURL => existsb (fun a => negb (isNil (URL a))) (reachableAddressables t)
  | DocTrustBundle =>
      existsb (fun a => negb (isNil (CACerts a))) (reachableAddressables t)
  | DocAudience =>
      existsb (fun a => negb (isNil (Audience a))) (reachableAddressables t)
  | DocAddress => negb (isNil (Address (Status t)))
  | DocAddresses => negb (isNil (Addresses (Status t)))
  end.

(** What a pointer refers to in a store, and the data pointer of an
    interface value. *)
Definition deref (p : ptr) (s : Store) : option Object := l ← p; s !! l.

Definition dataOf (i : iface) : ptr :=
  match i with
  | NilIface => None
  | Iface _ data => data
  end.

Module urltext.

(** Modelled from the spec: the text form of the URL value type is
    outside the file.  An absolute URL is written as its scheme,
    ["://"], its host and its path, followed by ["?"] and the query and
    by ["#"] and the fragment when these are not empty. *)
Definition String_ (u : apis.URL) : string :=
  apis.Scheme u +:+ "://" +:+ apis.Host u +:+ apis.Path u
    +:+ (if String.eqb (apis.Query u) "" then "" else "?" +:+ apis.Query u)
    +:+ (if String.eqb (apis.Fragment u) "" then "" else "#" +:+ apis.Fragment u).

Definition cutOr (s : string) (sep : ascii) : string * string :=
  match strings_.Cut s sep with
  | Some (before, after) => (before, after)
  | None => (s, "")
  end.

(** Modelled from the spec: absolute-URL parsing, the inverse of
    [String_]; a text without ["://"] is rejected. *)
Definition Parse (s : string) : option apis.URL :=
  let '(s, fragment) := cutOr s "#" in
  let '(s, query) := cutOr s "?" in
  match strings_.Cut s ":" with
  | Some (scheme, String "/" (String "/" rest)) =>
      let '(host, path) :=
        match strings_.Cut rest "/" with
        | Some (host, path) => (host, String "/" path)
        | None => (rest, "")
        end in
      Some {| apis.Scheme := scheme; apis.Host := host; apis.Path := path;
              apis.Query := query; apis.Fragment := fragment |}
  | _ => None
  end.

End urltext.

(** ** The JSON form of the skeleton and of its list *)

(** The members of an object (none for any other document). *)
Definition membersOf (v : json.Value) : list (string * json.Value) :=
  match v with
  | json.Obj members => members
  | _ => []
  end.

(** An embedded struct field: its members are written in place when the
    tag gives it no name, and as one named member otherwise.  A struct is
    never an empty value. *)
Definition embeddedMember (f : reflect.StructField)
    (members : list (string * json.Value)) : list (string * json.Value) :=
  if String.eqb (fst (json.parseTag (reflect.FieldTag f))) "" then members
  else json.member f false (json.Obj members).

(** [metav1.TypeMeta] as its package declares it. *)
Definition TypeMeta_decl : list reflect.StructField :=
  [ reflect.Build_StructField "Kind" T_string "kind,omitempty";
    reflect.Build_StructField "APIVersion" T_string "apiVersion,omitempty" ].

Definition TypeMeta_members (tm : metav1.TypeMeta) : list (string * json.Value) :=
  match TypeMeta_decl with
  | [fKind; fAPIVersion] =>
      json.member fKind (String.eqb (metav1.Kind tm) "")
        (json.encodeString (metav1.Kind tm)) ++
      json.member fAPIVersion (String.eqb (metav1.APIVersion tm) "")
        (json.encodeString (metav1.APIVersion tm))
  | _ => []
  end.

Section SkeletonEncoding.

Variable URL_String : apis.URL -> string.

(** The members [metav1.ObjectMeta] and [metav1.ListMeta] marshal to are
    their package's business; they are parameters here. *)
Variable ObjectMeta_members : metav1.ObjectMeta -> list (string * json.Value).
Variable ListMeta_members : metav1.ListMeta -> list (string * json.Value).

(** [json.Marshal] of an [AddressableType]. *)
Definition AddressableType_Marshal (t : AddressableType) : json.Value :=
  match AddressableType_decl with
  | [fTypeMeta; fObjectMeta; fStatus] =>
      json.Obj
        (embeddedMember fTypeMeta (TypeMeta_members (TypeMeta t)) ++
         embeddedMember fObjectMeta (ObjectMeta_members (ObjectMeta t)) ++
         json.member fStatus false (AddressStatus_Marshal URL_String (Status t)))
  | _ => json.Null
  end.

(** [json.Marshal] of an [AddressableTypeList]. *)
Definition AddressableTypeList_Marshal (l : AddressableTypeList) : json.Value :=
  match AddressableTypeList_decl with
  | [fTypeMeta; fListMeta; fItems] =>
      json.Obj
        (embeddedMember fTypeMeta (TypeMeta_members (ListTypeMeta l)) ++
         embeddedMember fListMeta (ListMeta_members (ListMeta l)) ++
         json.member fItems (Nat.eqb (len (Items l)) 0)
           match Items l with
           | Some items => json.Arr (map AddressableType_Marshal items)
           | None => json.Null
           end)
  | _ => json.Null
  end.

End SkeletonEncoding.

(** ** Decoding into a value that is already set *)


(** [a] with the field [f] set to nil. *)
Definition cleared (f : AddressableField) (a : Addressable) : Addressable :=
  match f with
  | FName => {| Name := None; URL := URL a; CACerts := CACerts a; Audience := Audience a |}
  | FURL => {| Name := Name a; URL := None; CACerts := CACerts a; Audience := Audience a |}
  | FCACerts => {| Name := Name a; URL := URL a; CACerts := None; Audience := Audience a |}
  | FAudience => {| Name := Name a; URL := URL a; CACerts := CACerts a; Audience := None |}
  end.


(** ** Sample values *)



(** The address the fixture is expected to hold: named ["http"], at
    scheme ["http"] and host ["foo.com"], with nothing else set. *)
Definition sampleAddress : Addressable :=
  {| Name := Some "http";
     URL := Some {| apis.Scheme := "http"; apis.Host := "foo.com";
                    apis.Path := ""; apis.Query := ""; apis.Fragment := "" |};
     CACerts := None;
     Audience := None |}.

(** A store that holds one zero skeleton. *)
Definition skeletonStore : Store := {[ 1%positive := OAddressableType zeroAddressableType ]}.

(** A skeleton that is fully set before the call. *)
Definition busyAddress : Addressable :=
  {| Name := Some "https";
     URL := Some {| apis.Scheme := "https"; apis.Host := "a"; apis.Path := "/";
                    apis.Query := ""; apis.Fragment := "" |};
     CACerts := Some "-----BEGIN CERTIFICATE-----";
     Audience := Some "recipient" |}.

Definition busySkeleton : AddressableType :=
  {| TypeMeta := {| metav1.Kind := "AddressableType";
                    metav1.APIVersion := "duck.knative.dev/v1" |};
     ObjectMeta := {| metav1.Name := "sink"; metav1.Namespace := "default";
                      metav1.ResourceVersion := "7";
                      metav1.Labels := {[ "app" := "sink" ]};
                      metav1.Annotations := ∅ |};
     Status := {| Address := Some busyAddress;
                  Addresses := Some [busyAddress; busyAddress] |} |}.

Definition busyStore : Store :=
  {[ 1%positive := OAddressableType zeroAddressableType;
     2%positive := OAddressableType busySkeleton ]}.

(** The address of the first end-to-end scenario, with the path it is
    written with there. *)
Definition scenarioAddress : Addressable :=
  {| Name := Some "http";
     URL := Some {| apis.Scheme := "http"; apis.Host := "foo.com"; apis.Path := "/";
                    apis.Query := ""; apis.Fragment := "" |};
     CACerts := None;
     Audience := None |}.


(** Skeletons whose [apiVersion] has no slash, and more than one. *)
Definition coreSkeleton : AddressableType :=
  {| TypeMeta := {| metav1.Kind := "Service"; metav1.APIVersion := "v1" |};
     ObjectMeta := metav1.zeroObjectMeta;
     Status := zeroAddressStatus |}.

Definition malformedSkeleton : AddressableType :=
  {| TypeMeta := {| metav1.Kind := "Sink"; metav1.APIVersion := "a/b/c" |};
     ObjectMeta := metav1.zeroObjectMeta;
     Status := zeroAddressStatus |}.

Definition kindStore : Store :=
  {[ 1%positive := OAddressableType coreSkeleton;
     2%positive := OAddressableType malformedSkeleton ]}.

(** A counterpart of an earlier revision, as a typed nil pointer. *)
Definition betaCounterpart : iface :=
  Iface (reflect.Pointer (reflect.Named "v1beta1" "Addressable")) None.

(** * Properties *)

(** ** Text *)

Lemma HasPrefix_app (p rest : string) : strings_.HasPrefix (p +:+ rest) p = true.
Proof.
  induction p as [|c p IH]; simpl; [done|].
  by rewrite Ascii.eqb_refl, IH.
Qed.

Lemma Contains_app (pre sub post : string) :
  strings_.Contains (pre +:+ sub +:+ post) sub = true.
Proof.
  induction pre as [|c pre IH].
  - change ("" +:+ sub +:+ post) with (sub +:+ post).
    destruct (sub +:+ post) eqn:E; unfold strings_.Contains;
      rewrite <- E, HasPrefix_app; done.
  - change (String c pre +:+ sub +:+ post) with (String c (pre +:+ sub +:+ post)).
    cbn [strings_.Contains]. rewrite IH. apply orb_true_r.
Qed.

Lemma Count_app (g t : string) (sep : ascii) :
  strings_.Count (g +:+ t) sep = strings_.Count g sep + strings_.Count t sep.
Proof.
  induction g as [|c g IH]; simpl; [done|]. rewrite IH. lia.
Qed.

Lemma Cut_first (g v : string) (sep : ascii) :
  strings_.Count g sep = 0 ->
  strings_.Cut (g +:+ String sep v) sep = Some (g, v).
Proof.
  induction g as [|c g IH]; simpl; intros H.
  - by rewrite Ascii.eqb_refl.
  - destruct (Ascii.eqb c sep); [discriminate|].
    by rewrite IH.
Qed.

(** ** The conversion stubs *)

Lemma Errorf_highest (c : iface) :
  fmt.Errorf "v1 is the highest known version, got: %T" [c]
  = Error ("v1 is the highest known version, got: " +:+ fmt.verbT c +:+ "").
Proof. reflexivity. Qed.

(** C1.  Whatever counterpart is passed, [ConvertTo] returns an error,
    never [nil], and the message of that error contains the type identity
    of the counterpart: the name of its dynamic type, or [<nil>] for the
    nil interface, which has none.  [ConvertFrom] does the same for its
    source. *)
Theorem Convert_fails_naming_counterpart (s : Store) (a : ptr) (ctx c : iface) :
  (exists msg,
      ConvertTo a ctx c s = Returns (Error msg) s /\
      strings_.Contains msg
        match c with
        | Iface dyn _ => reflect.String_ dyn
        | NilIface => "<nil>"
        end = true) /\
  (exists msg,
      ConvertFrom a ctx c s = Returns (Error msg) s /\
      strings_.Contains msg
        match c with
        | Iface dyn _ => reflect.String_ dyn
        | NilIface => "<nil>"
        end = true).
Proof.
  split; eexists; (split; [unfold ConvertTo, ConvertFrom, ret;
                            rewrite Errorf_highest; reflexivity|]);
    destruct c; apply Contains_app.
Qed.

(** C9.  A conversion call changes nothing: it returns its error and
    leaves the store as it found it, so what the receiver points to and
    what the counterpart points to are as they were before the call. *)
Theorem Convert_leaves_store_unchanged (s : Store) (a : ptr) (ctx c : iface) :
  (exists e s',
      ConvertTo a ctx c s = Returns e s' /\ e <> NoError /\ s' = s /\
      deref a s' = deref a s /\ deref (dataOf c) s' = deref (dataOf c) s) /\
  (exists e s',
      ConvertFrom a ctx c s = Returns e s' /\ e <> NoError /\ s' = s /\
      deref a s' = deref a s /\ deref (dataOf c) s' = deref (dataOf c) s).
Proof.
  split; eexists; eexists; (split; [reflexivity|]); by repeat split.
Qed.

(** ** The fixture *)

Lemma Populate_returns (s : Store) (l : loc) (v : AddressableType) :
  s !! l = Some (OAddressableType v) ->
  Populate (Some l) s
  = Returns tt
      (<[l := OAddressableType
               {| TypeMeta := TypeMeta v; ObjectMeta := ObjectMeta v;
                  Status := {| Address := Some sampleAddress; Addresses := None |} |}]> s).
Proof.
  intros H. unfold Populate, bind, loadAddressableType. by rewrite H.
Qed.

(** A nil receiver is dereferenced, and the call panics. *)
Lemma Populate_nil (s : Store) : Populate None s = Panics nilDereference.
Proof. reflexivity. Qed.

(** C4.  [Populate] on any [AddressableType] of the store returns and
    leaves in its place a skeleton whose status is one fixed value: the
    scalar address is present, its name is ["http"], its URL has scheme
    ["http"] and host ["foo.com"], and it has no trust bundle and no
    audience. *)
Theorem Populate_fixture (s : Store) (l : loc) (v : AddressableType) :
  s !! l = Some (OAddressableType v) ->
  exists v' a u,
    Populate (Some l) s = Returns tt (<[l := OAddressableType v']> s) /\
    Address (Status v') = Some a /\
    Name a = Some "http" /\
    URL a = Some u /\ apis.Scheme u = "http" /\ apis.Host u = "foo.com" /\
    CACerts a = None /\ Audience a = None /\
    Status v' = {| Address := Some sampleAddress; Addresses := None |}.
Proof.
  intros H. do 3 eexists. split; [by apply Populate_returns|].
  by repeat split.
Qed.

Lemma Populate_fixture_witness :
  exists v' a u,
    Populate (Some 1%positive) skeletonStore
    = Returns tt (<[1%positive := OAddressableType v']> skeletonStore) /\
    Address (Status v') = Some a /\
    Name a = Some "http" /\
    URL a = Some u /\ apis.Scheme u = "http" /\ apis.Host u = "foo.com" /\
    CACerts a = None /\ Audience a = None /\
    Status v' = {| Address := Some sampleAddress; Addresses := None |}.
Proof.
  apply (Populate_fixture skeletonStore 1%positive zeroAddressableType).
  reflexivity.
Defined.

(** C10.  [Populate] replaces the whole status: whatever the skeleton
    held before, the list of addresses is nil afterwards and no reachable
    address has a trust bundle or an audience, and two skeletons with
    different prior states end with the same status.  The type metadata
    and the object metadata of the skeleton are what they were, and so is
    every other object of the store. *)
Theorem Populate_replaces_status
    (s1 s2 : Store) (l1 l2 : loc) (v1 v2 : AddressableType) :
  s1 !! l1 = Some (OAddressableType v1) ->
  s2 !! l2 = Some (OAddressableType v2) ->
  exists v1' v2' s1',
    Populate (Some l1) s1 = Returns tt s1' /\
    s1' !! l1 = Some (OAddressableType v1') /\
    (forall l, l <> l1 -> s1' !! l = s1 !! l) /\
    Populate (Some l2) s2 = Returns tt (<[l2 := OAddressableType v2']> s2) /\
    Status v1' = Status v2' /\
    Addresses (Status v1') = None /\
    Forall (fun a => CACerts a = None /\ Audience a = None)
      (reachableAddressables v1') /\
    TypeMeta v1' = TypeMeta v1 /\
    ObjectMeta v1' = ObjectMeta v1.
Proof.
  intros H1 H2. do 3 eexists.
  split; [by apply Populate_returns|].
  split; [by rewrite lookup_insert_eq|].
  split; [by intros l Hl; rewrite lookup_insert_ne|].
  split; [by apply Populate_returns|].
  repeat split. by repeat constructor.
Qed.

Lemma Populate_replaces_status_witness :
  exists v1' v2' s1',
    Populate (Some 2%positive) busyStore = Returns tt s1' /\
    s1' !! 2%positive = Some (OAddressableType v1') /\
    (forall l, l <> 2%positive -> s1' !! l = busyStore !! l) /\
    Populate (Some 1%positive) skeletonStore
    = Returns tt (<[1%positive := OAddressableType v2']> skeletonStore) /\
    Status v1' = Status v2' /\
    Addresses (Status v1') = None /\
    Forall (fun a => CACerts a = None /\ Audience a = None)
      (reachableAddressables v1') /\
    TypeMeta v1' = TypeMeta busySkeleton /\
    ObjectMeta v1' = ObjectMeta busySkeleton.
Proof.
  apply (Populate_replaces_status busyStore skeletonStore 2%positive 1%positive
           busySkeleton zeroAddressableType); reflexivity.
Defined.

(** C5.  The fixture on the zero skeleton: the call returns, and of the
    six documented fields the name, the URL and the scalar address are
    covered by an object reachable from the skeleton, while the trust
    bundle, the audience and the list of addresses are absent on every
    one of them. *)
Theorem Populate_leaves_fields_uncovered :
  exists v',
    Populate (Some 1%positive) skeletonStore
    = Returns tt (<[1%positive := OAddressableType v']> skeletonStore) /\
    covered DocName v' = true /\
    covered DocURL v' = true /\
    covered DocAddress v' = true /\
    covered DocTrustBundle v' = false /\
    covered DocAudience v' = false /\
    covered DocAddresses v' = false.
Proof.
  eexists. split; [by apply Populate_returns|]. by repeat split.
Qed.

(** ** The discovery hooks *)

Lemma new_returns (o : Object) (s : Store) :
  exists l, s !! l = None /\ new o s = Returns l (<[l := o]> s).
Proof.
  exists (fresh (dom s)). split; [|reflexivity].
  apply not_elem_of_dom, is_fresh.
Qed.

(** C8.  [GetListType] returns, for any receiver, a pointer to a newly
    allocated zero [AddressableTypeList], whose [Items] are declared as a
    slice of [AddressableType]; [GetFullType] returns a pointer to a newly
    allocated zero [AddressableType], whose status is declared as an
    [AddressStatus], which holds a pointer to an [Addressable] and a
    slice of them. *)
Theorem GetListType_GetFullType_zero_values (s : Store) (t a : ptr) :
  (exists l,
      s !! l = None /\
      GetListType t s
      = Returns (Iface (reflect.Pointer T_AddressableTypeList) (Some l))
          (<[l := OAddressableTypeList zeroAddressableTypeList]> s) /\
      Items zeroAddressableTypeList = None /\
      fieldType AddressableTypeList_decl "Items"
      = Some (reflect.Slice T_AddressableType)) /\
  (exists l,
      s !! l = None /\
      GetFullType a s
      = Returns (Iface (reflect.Pointer T_AddressableType) (Some l))
          (<[l := OAddressableType zeroAddressableType]> s) /\
      Status zeroAddressableType = zeroAddressStatus /\
      fieldType AddressableType_decl "Status" = Some T_AddressStatus /\
      fieldType (map AddressStatus_decl AddressStatus_fields) "Address"
      = Some (reflect.Pointer T_Addressable) /\
      fieldType (map AddressStatus_decl AddressStatus_fields) "Addresses"
      = Some (reflect.Slice T_Addressable)).
Proof.
  split.
  - destruct (new_returns (OAddressableTypeList zeroAddressableTypeList) s)
      as (l & Hfresh & Hnew).
    exists l. split; [done|]. split; [|done].
    unfold GetListType, bind. by rewrite Hnew.
  - destruct (new_returns (OAddressableType zeroAddressableType) s)
      as (l & Hfresh & Hnew).
    exists l. split; [done|]. split; [|done].
    unfold GetFullType, bind. by rewrite Hnew.
Qed.

(** ** Kind reporting *)

Lemma ParseGroupVersion_group_version (g v : string) :
  strings_.Count g "/" = 0 ->
  strings_.Count v "/" = 0 ->
  schema.ParseGroupVersion (g +:+ "/" +:+ v)
  = Some {| schema.gv_Group := g; schema.gv_Version := v |}.
Proof.
  intros Hg Hv. unfold schema.ParseGroupVersion.
  destruct (String.eqb_spec (g +:+ "/" +:+ v) "") as [E|_].
  { destruct g; discriminate. }
  destruct (String.eqb_spec (g +:+ "/" +:+ v) "/") as [E|_]; cbn [orb].
  - destruct g as [|c g]; cbn in E.
    + injection E as E. change ("" +:+ v) with v in E. by subst v.
    + injection E as _ E. destruct g; discriminate.
  - change ("/" +:+ v) with (String "/" v).
    rewrite Count_app. cbn [strings_.Count]. rewrite Hg, Hv, Cut_first by done.
    reflexivity.
Qed.

Lemma GetGroupVersionKind_returns (s : Store) (l : loc) (v : AddressableType) :
  s !! l = Some (OAddressableType v) ->
  GetGroupVersionKind (Some l) s
  = Returns (schema.FromAPIVersionAndKind
               (metav1.APIVersion (TypeMeta v)) (metav1.Kind (TypeMeta v))) s.
Proof.
  intros H. unfold GetGroupVersionKind, bind, loadAddressableType. by rewrite H.
Qed.

(** C7, as the code has it.  [GetGroupVersionKind] reads the triple off
    the type metadata embedded in the instance: when the instance's
    [apiVersion] is a group and a version separated by a slash, the call
    returns that group, that version and the instance's [kind], and the
    store is left as it was. *)
Theorem GetGroupVersionKind_reads_TypeMeta
    (s : Store) (l : loc) (v : AddressableType) (g ver : string) :
  s !! l = Some (OAddressableType v) ->
  metav1.APIVersion (TypeMeta v) = g +:+ "/" +:+ ver ->
  strings_.Count g "/" = 0 ->
  strings_.Count ver "/" = 0 ->
  GetGroupVersionKind (Some l) s
  = Returns {| schema.Group := g; schema.Version := ver;
               schema.Kind := metav1.Kind (TypeMeta v) |} s.
Proof.
  intros H E Hg Hv. rewrite (GetGroupVersionKind_returns s l v H), E.
  unfold schema.FromAPIVersionAndKind.
  by rewrite ParseGroupVersion_group_version.
Qed.

Lemma GetGroupVersionKind_reads_TypeMeta_witness :
  GetGroupVersionKind (Some 2%positive) busyStore
  = Returns {| schema.Group := "duck.knative.dev"; schema.Version := "v1";
               schema.Kind := "AddressableType" |} busyStore.
Proof.
  apply (GetGroupVersionKind_reads_TypeMeta busyStore 2%positive busySkeleton
           "duck.knative.dev" "v1"); reflexivity.
Defined.

(** C7, as the claim has it, fails: no one triple is returned for every
    [AddressableType].  The zero skeleton reports the empty triple, a
    skeleton with its type metadata filled in reports that metadata. *)
Lemma GetGroupVersionKind_not_fixed :
  ~ exists gvk : schema.GroupVersionKind,
      forall (s : Store) (l : loc) (v : AddressableType),
        s !! l = Some (OAddressableType v) ->
        GetGroupVersionKind (Some l) s = Returns gvk s.
Proof.
  intros [gvk H].
  pose proof (H busyStore 1%positive zeroAddressableType eq_refl) as H1.
  pose proof (H busyStore 2%positive busySkeleton eq_refl) as H2.
  vm_compute in H1, H2. congruence.
Qed.

(** ** Resolving a destination *)

(** C3.  A consumer that follows the precedence rule selects from the
    list of addresses when it is present and not empty, whatever the
    scalar address is; with the list nil or empty and the scalar address
    present, that address is the only candidate; with both absent there
    is no destination. *)
Theorem resolveDestination_precedence
    (address : option Addressable) (a b : Addressable) (bs : list Addressable) :
  resolveDestination {| Address := address; Addresses := Some (b :: bs) |}
  = SelectFrom (b :: bs) /\
  resolveDestination {| Address := Some a; Addresses := None |} = SelectFrom [a] /\
  resolveDestination {| Address := Some a; Addresses := Some [] |} = SelectFrom [a] /\
  resolveDestination {| Address := None; Addresses := None |} = NotReady.
Proof. by repeat split. Qed.

(** ** The JSON form of the address *)





Section EncodingProperties.

Variable URL_String : apis.URL -> string.
Variable URL_Parse : string -> option apis.URL.

Lemma Addressable_Marshal_members (a : Addressable) :
  Addressable_Marshal URL_String a
  = json.Obj
      (match Name a with
       | Some s => [("name", json.encodeString s)]
       | None => []
       end ++
       match URL a with
       | Some u => [("url", json.Str (URL_String u))]
       | None => []
       end ++
       match CACerts a with
       | Some s => [("CACerts", json.encodeString s)]
       | None => []
       end ++
       match Audience a with
       | Some s => [("audience", json.encodeString s)]
       | None => []
       end).
Proof. by destruct a as [[?|] [?|] [?|] [?|]]. Qed.




End EncodingProperties.




(** C6.  A marshalled [Addressable] is the object whose members are, in
    this order and in exactly this spelling, ["name"] with the name,
    ["url"] with the text of the URL, ["CACerts"] with the trust bundle
    and ["audience"] with the audience, each one written only when its
    field is not nil.  A marshalled [AddressStatus] is the object with
    ["address"] and the marshalled scalar address, written when it is not
    nil, and ["addresses"] and the array of the marshalled addresses,
    written when the list is not empty. *)
Theorem json_member_names
    (URL_String : apis.URL -> string) (a : Addressable) (s : AddressStatus) :
  Addressable_Marshal URL_String a
  = json.Obj
      (match Name a with
       | Some n => [("name", json.encodeString n)]
       | None => []
       end ++
       match URL a with
       | Some u => [("url", json.Str (URL_String u))]
       | None => []
       end ++
       match CACerts a with
       | Some c => [("CACerts", json.encodeString c)]
       | None => []
       end ++
       match Audience a with
       | Some d => [("audience", json.encodeString d)]
       | None => []
       end)%list /\
  AddressStatus_Marshal URL_String s
  = json.Obj
      (match Address s with
       | Some x => [("address", Addressable_Marshal URL_String x)]
       | None => []
       end ++
       match Addresses s with
       | Some (x :: xs) =>
           [("addresses", json.Arr (map (Addressable_Marshal URL_String) (x :: xs)))]
       | _ => []
       end)%list /\
  json.keys (Addressable_Marshal URL_String a)
  = ((if isNil (Name a) then [] else ["name"]) ++
     (if isNil (URL a) then [] else ["url"]) ++
     (if isNil (CACerts a) then [] else ["CACerts"]) ++
     (if isNil (Audience a) then [] else ["audience"]))%list /\
  json.keys (AddressStatus_Marshal URL_String s)
  = ((if isNil (Address s) then [] else ["address"]) ++
     match Addresses s with
     | Some (_ :: _) => ["addresses"]
     | _ => []
     end)%list.
Proof.
  split; [apply Addressable_Marshal_members|].
  split; [by destruct s as [[?|] [[|? ?]|]]|].
  split.
  - rewrite Addressable_Marshal_members.
    by destruct a as [[?|] [?|] [?|] [?|]].
  - by destruct s as [[?|] [[|? ?]|]].
Qed.

(** ** The end-to-end scenarios *)

Example scenario_marshal_name_and_url :
  Addressable_Marshal urltext.String_ scenarioAddress
  = json.Obj [("name", json.Str "http"); ("url", json.Str "http://foo.com/")].
Proof. reflexivity. Qed.

Example scenario_unmarshal_trust_bundle :
  Addressable_Unmarshal urltext.Parse
    (json.Obj [("CACerts", json.Str "-----BEGIN CERTIFICATE-----")]) zeroAddressable
  = Some {| Name := None; URL := None;
            CACerts := Some "-----BEGIN CERTIFICATE-----"; Audience := None |}.
Proof. reflexivity. Qed.

Example scenario_list_wins :
  resolveDestination
    {| Address := Some sampleAddress; Addresses := Some [busyAddress] |}
  = SelectFrom [busyAddress].
Proof. reflexivity. Qed.

Example scenario_not_ready : resolveDestination zeroAddressStatus = NotReady.
Proof. reflexivity. Qed.

Example scenario_convert_message :
  ConvertTo (Some 1%positive) NilIface
    (Iface (reflect.Pointer (reflect.Named "v1beta1" "Addressable")) None)
    skeletonStore
  = Returns (Error "v1 is the highest known version, got: *v1beta1.Addressable")
      skeletonStore.
Proof. reflexivity. Qed.

(** * Further properties of the code *)

(** ** Calls in sequence *)

(** X1.  [Populate] is idempotent: on a receiver that points to a
    skeleton, a second call returns and leaves the store the first call
    left. *)
Theorem Populate_idempotent (s : Store) (l : loc) (v : AddressableType) :
  s !! l = Some (OAddressableType v) ->
  exists s',
    Populate (Some l) s = Returns tt s' /\
    Populate (Some l) s' = Returns tt s'.
Proof.
  intros H. eexists. split; [by apply Populate_returns|].
  erewrite Populate_returns by apply lookup_insert_eq.
  cbn. by rewrite insert_insert_eq.
Qed.

Lemma Populate_idempotent_witness :
  exists s',
    Populate (Some 2%positive) busyStore = Returns tt s' /\
    Populate (Some 2%positive) s' = Returns tt s'.
Proof.
  apply (Populate_idempotent busyStore 2%positive busySkeleton). reflexivity.
Defined.

(** X2.  [Populate] does not change what [GetGroupVersionKind] reports:
    the triple read before the call is the triple read after it. *)
Theorem Populate_keeps_GroupVersionKind (s : Store) (l : loc) (v : AddressableType) :
  s !! l = Some (OAddressableType v) ->
  exists gvk s',
    GetGroupVersionKind (Some l) s = Returns gvk s /\
    Populate (Some l) s = Returns tt s' /\
    GetGroupVersionKind (Some l) s' = Returns gvk s'.
Proof.
  intros H. do 2 eexists.
  split; [by apply GetGroupVersionKind_returns|].
  split; [by apply Populate_returns|].
  by erewrite GetGroupVersionKind_returns by apply lookup_insert_eq.
Qed.

Lemma Populate_keeps_GroupVersionKind_witness :
  exists gvk s',
    GetGroupVersionKind (Some 2%positive) busyStore = Returns gvk busyStore /\
    Populate (Some 2%positive) busyStore = Returns tt s' /\
    GetGroupVersionKind (Some 2%positive) s' = Returns gvk s'.
Proof.
  apply (Populate_keeps_GroupVersionKind busyStore 2%positive busySkeleton).
  reflexivity.
Defined.

Lemma insert_fresh_keeps (s : Store) (l l' : loc) (o : Object) :
  s !! l = None -> is_Some (s !! l') -> <[l := o]> s !! l' = s !! l'.
Proof.
  intros Hfresh [o' Ho']. rewrite lookup_insert_ne; [done|].
  intros ->. congruence.
Qed.

(** X3.  The instance [GetFullType] hands out can be populated: for any
    store and any receiver, [GetFullType] returns a non-nil pointer, on
    which [Populate] returns; the new skeleton then has zero metadata and
    the fixture's status, and every object the store held before the two
    calls is as it was. *)
Theorem GetFullType_then_Populate (s : Store) (a : ptr) :
  exists l s1 s2,
    GetFullType a s = Returns (Iface (reflect.Pointer T_AddressableType) (Some l)) s1 /\
    Populate (Some l) s1 = Returns tt s2 /\
    s2 !! l
    = Some (OAddressableType
              {| TypeMeta := metav1.zeroTypeMeta;
                 ObjectMeta := metav1.zeroObjectMeta;
                 Status := {| Address := Some sampleAddress; Addresses := None |} |}) /\
    (forall l', is_Some (s !! l') -> s2 !! l' = s !! l').
Proof.
  destruct (new_returns (OAddressableType zeroAddressableType) s)
    as (l & Hfresh & Hnew).
  exists l. do 2 eexists.
  split; [unfold GetFullType, bind; by rewrite Hnew|].
  split; [by apply Populate_returns, lookup_insert_eq|].
  split; [by rewrite lookup_insert_eq|].
  intros l' Hl'. rewrite insert_insert_eq. by apply insert_fresh_keeps.
Qed.

(** X4.  Every call of a discovery hook hands out a new instance: two
    calls of [GetListType] in a row return two different non-nil
    pointers, each to a zero list, and every object the store held before
    is as it was. *)
Theorem GetListType_twice_distinct (s : Store) (t : ptr) :
  exists l1 l2 s1 s2,
    GetListType t s
    = Returns (Iface (reflect.Pointer T_AddressableTypeList) (Some l1)) s1 /\
    GetListType t s1
    = Returns (Iface (reflect.Pointer T_AddressableTypeList) (Some l2)) s2 /\
    l1 <> l2 /\
    s2 !! l1 = Some (OAddressableTypeList zeroAddressableTypeList) /\
    s2 !! l2 = Some (OAddressableTypeList zeroAddressableTypeList) /\
    (forall l', is_Some (s !! l') -> s2 !! l' = s !! l').
Proof.
  destruct (new_returns (OAddressableTypeList zeroAddressableTypeList) s)
    as (l1 & Hf1 & Hn1).
  destruct (new_returns (OAddressableTypeList zeroAddressableTypeList)
              (<[l1 := OAddressableTypeList zeroAddressableTypeList]> s))
    as (l2 & Hf2 & Hn2).
  assert (l1 <> l2) as Hne.
  { intros ->. by rewrite lookup_insert_eq in Hf2. }
  exists l1, l2. do 2 eexists.
  split; [unfold GetListType, bind; by rewrite Hn1|].
  split; [unfold GetListType, bind; by rewrite Hn2|].
  split; [done|].
  split; [by rewrite lookup_insert_ne, lookup_insert_eq|].
  split; [by rewrite lookup_insert_eq|].
  intros l' Hl'. rewrite insert_fresh_keeps; [by apply insert_fresh_keeps|done|].
  rewrite insert_fresh_keeps; done.
Qed.

(** X5.  The two methods that read or write through their receiver,
    [Populate] and [GetGroupVersionKind], panic on a nil receiver.  The
    four that do not use it return on a nil receiver, and what they
    return and the store they leave are those of the same call on any
    other receiver [a]. *)
Theorem nil_receiver (s : Store) (a : ptr) (ctx c : iface) :
  Populate None s = Panics nilDereference /\
  GetGroupVersionKind None s = Panics nilDereference /\
  (exists e, ConvertTo None ctx c s = Returns (Error e) s /\
             ConvertTo a ctx c s = Returns (Error e) s) /\
  (exists e, ConvertFrom None ctx c s = Returns (Error e) s /\
             ConvertFrom a ctx c s = Returns (Error e) s) /\
  (exists l s',
      GetFullType None s
      = Returns (Iface (reflect.Pointer T_AddressableType) (Some l)) s' /\
      GetFullType a s
      = Returns (Iface (reflect.Pointer T_AddressableType) (Some l)) s') /\
  (exists l s',
      GetListType None s
      = Returns (Iface (reflect.Pointer T_AddressableTypeList) (Some l)) s' /\
      GetListType a s
      = Returns (Iface (reflect.Pointer T_AddressableTypeList) (Some l)) s').
Proof.
  split; [reflexivity|]. split; [reflexivity|].
  split; [by eexists|]. split; [by eexists|].
  split; by do 2 eexists.
Qed.

(** ** Kind reporting on other forms of [apiVersion] *)

Lemma Count_zero_Cut (s : string) (sep : ascii) :
  strings_.Count s sep = 0 -> strings_.Cut s sep = None.
Proof.
  induction s as [|c s IH]; simpl; [done|].
  destruct (Ascii.eqb c sep); [discriminate|].
  intros H. by rewrite IH.
Qed.

(** X6.  An [apiVersion] without a slash is a version of the core group:
    [GetGroupVersionKind] reports the empty group, the [apiVersion] as the
    version, and the instance's kind. *)
Theorem GetGroupVersionKind_core_group (s : Store) (l : loc) (v : AddressableType) :
  s !! l = Some (OAddressableType v) ->
  strings_.Count (metav1.APIVersion (TypeMeta v)) "/" = 0 ->
  GetGroupVersionKind (Some l) s
  = Returns {| schema.Group := "";
               schema.Version := metav1.APIVersion (TypeMeta v);
               schema.Kind := metav1.Kind (TypeMeta v) |} s.
Proof.
  intros H Hc. rewrite (GetGroupVersionKind_returns s l v H).
  unfold schema.FromAPIVersionAndKind, schema.ParseGroupVersion.
  destruct (String.eqb_spec (metav1.APIVersion (TypeMeta v)) "") as [->|_]; [done|].
  destruct (String.eqb_spec (metav1.APIVersion (TypeMeta v)) "/") as [E|_].
  { rewrite E in Hc. discriminate. }
  cbn [orb]. by rewrite Hc.
Qed.

(** X7.  An [apiVersion] with more than one slash is not reported as an
    error: [GetGroupVersionKind] returns the empty group and the empty
    version, and still the instance's kind. *)
Theorem GetGroupVersionKind_malformed (s : Store) (l : loc) (v : AddressableType) :
  s !! l = Some (OAddressableType v) ->
  2 <= strings_.Count (metav1.APIVersion (TypeMeta v)) "/" ->
  GetGroupVersionKind (Some l) s
  = Returns {| schema.Group := ""; schema.Version := "";
               schema.Kind := metav1.Kind (TypeMeta v) |} s.
Proof.
  intros H Hc. rewrite (GetGroupVersionKind_returns s l v H).
  unfold schema.FromAPIVersionAndKind, schema.ParseGroupVersion.
  destruct (String.eqb (metav1.APIVersion (TypeMeta v)) ""
            || String.eqb (metav1.APIVersion (TypeMeta v)) "/"); [done|].
  destruct (strings_.Count (metav1.APIVersion (TypeMeta v)) "/") as [|[|n]];
    [lia|lia|done].
Qed.

Lemma GetGroupVersionKind_core_group_witness :
  GetGroupVersionKind (Some 1%positive) kindStore
  = Returns {| schema.Group := ""; schema.Version := "v1";
               schema.Kind := "Service" |} kindStore.
Proof.
  apply (GetGroupVersionKind_core_group kindStore 1%positive coreSkeleton);
    reflexivity.
Defined.

Lemma GetGroupVersionKind_malformed_witness :
  GetGroupVersionKind (Some 2%positive) kindStore
  = Returns {| schema.Group := ""; schema.Version := "";
               schema.Kind := "Sink" |} kindStore.
Proof.
  apply (GetGroupVersionKind_malformed kindStore 2%positive malformedSkeleton);
    [reflexivity | vm_compute; lia].
Defined.

(** ** The text of the conversion error *)

Lemma append_empty_r (s : string) : s +:+ "" = s.
Proof.
  induction s as [|c s IH]; [done|].
  change (String c s +:+ "") with (String c (s +:+ "")). by rewrite IH.
Qed.

Lemma append_cancel_l (p s t : string) : p +:+ s = p +:+ t -> s = t.
Proof.
  induction p as [|c p IH]; intros H; [done|].
  change (String c (p +:+ s) = String c (p +:+ t)) in H.
  injection H as H. by apply IH.
Qed.

(** X8.  The text of the error tells counterparts of different types
    apart, and depends on nothing else: two conversion calls, on any
    receivers, contexts and stores and in either direction, return the
    same error exactly when [%T] prints their counterparts alike. *)
Theorem Convert_error_identifies_type
    (s s' : Store) (a a' : ptr) (ctx ctx' c c' : iface) :
  (exists e, ConvertTo a ctx c s = Returns e s /\
             ConvertFrom a' ctx' c' s' = Returns e s')
  <-> fmt.verbT c = fmt.verbT c'.
Proof.
  unfold ConvertTo, ConvertFrom, ret. rewrite !Errorf_highest, !append_empty_r.
  split.
  - intros (e & H1 & H2). injection H1 as <-. injection H2 as H2.
    symmetry. by apply append_cancel_l in H2.
  - intros ->. by eexists.
Qed.

(** ** Decoding an address *)

Lemma Addressable_memberName (f : AddressableField) :
  json.memberName (Addressable_decl f)
  = match f with
    | FName => "name"
    | FURL => "url"
    | FCACerts => "CACerts"
    | FAudience => "audience"
    end.
Proof. by destruct f. Qed.

Lemma selectField_exact (f : AddressableField) :
  json.selectField Addressable_fields Addressable_decl
    (json.memberName (Addressable_decl f)) = Some f.
Proof. by destruct f. Qed.



(** X10.  Member names are matched without regard to letter case when
    decoding: a name that equals a field's member name up to the case of
    its ASCII letters selects that field. *)
Theorem selectField_ignores_case (f : AddressableField) (key : string) :
  strings_.EqualFold (json.memberName (Addressable_decl f)) key = true ->
  json.selectField Addressable_fields Addressable_decl key = Some f.
Proof.
  intros H. unfold strings_.EqualFold in H. apply String.eqb_eq in H.
  rewrite Addressable_memberName in H.
  unfold json.selectField, Addressable_fields. cbn [List.find].
  rewrite !Addressable_memberName. unfold strings_.EqualFold.
  destruct (String.eqb_spec "name" key) as [<-|_];
    [by destruct f|].
  destruct (String.eqb_spec "url" key) as [<-|_];
    [by destruct f|].
  destruct (String.eqb_spec "CACerts" key) as [<-|_];
    [by destruct f|].
  destruct (String.eqb_spec "audience" key) as [<-|_];
    [by destruct f|].
  rewrite <- H. by destruct f.
Qed.

Lemma selectField_ignores_case_witness :
  json.selectField Addressable_fields Addressable_decl "cacerts" = Some FCACerts.
Proof.
  apply (selectField_ignores_case FCACerts "cacerts"). reflexivity.
Defined.

(** X11.  An explicit [null] clears a field and a value of the wrong
    kind is an error: decoding a document whose only member is a field's
    name with [null] sets that field to nil in the target and leaves the
    others, and with a number or a boolean in its place the decoding
    fails. *)
Theorem Addressable_Unmarshal_null_and_mismatch
    (URL_Parse : string -> option apis.URL)
    (f : AddressableField) (b : Addressable) (n : string) (t : bool) :
  Addressable_Unmarshal URL_Parse
    (json.Obj [(json.memberName (Addressable_decl f), json.Null)]) b
  = Some (cleared f b) /\
  Addressable_Unmarshal URL_Parse
    (json.Obj [(json.memberName (Addressable_decl f), json.Num n)]) b
  = None /\
  Addressable_Unmarshal URL_Parse
    (json.Obj [(json.memberName (Addressable_decl f), json.Bool t)]) b
  = None.
Proof.
  unfold Addressable_Unmarshal, Addressable_decodeMember. cbn [fold_left fst snd].
  cbn [mbind option_bind]. rewrite selectField_exact.
  by destruct f.
Qed.

(** ** The JSON form of the status, the skeleton and the list *)

(** X12.  The JSON form does not tell an empty list of addresses from a
    nil one: a status whose [Addresses] is an empty slice marshals to the
    same document as the status without it, and that document has no
    ["addresses"] member. *)
Theorem AddressStatus_Marshal_empty_list
    (URL_String : apis.URL -> string) (address : option Addressable) :
  AddressStatus_Marshal URL_String {| Address := address; Addresses := Some [] |}
  = AddressStatus_Marshal URL_String {| Address := address; Addresses := None |} /\
  "addresses" ∉ json.keys
    (AddressStatus_Marshal URL_String {| Address := address; Addresses := Some [] |}).
Proof.
  split; [done|].
  destruct address; cbn.
  - apply not_elem_of_cons. split; [discriminate|apply not_elem_of_nil].
  - apply not_elem_of_nil.
Qed.

(** X13.  A marshalled skeleton always has its ["metadata"] and
    ["status"] members, the zero skeleton too: after the members of the
    type metadata, written in place (["kind"] and ["apiVersion"], each
    only when it is not empty), come ["metadata"] with the object
    metadata and ["status"] with the marshalled status. *)
Theorem AddressableType_Marshal_members
    (URL_String : apis.URL -> string)
    (ObjectMeta_members : metav1.ObjectMeta -> list (string * json.Value))
    (t : AddressableType) :
  AddressableType_Marshal URL_String ObjectMeta_members t
  = json.Obj
      ((if String.eqb (metav1.Kind (TypeMeta t)) "" then []
        else [("kind", json.encodeString (metav1.Kind (TypeMeta t)))]) ++
       (if String.eqb (metav1.APIVersion (TypeMeta t)) "" then []
        else [("apiVersion", json.encodeString (metav1.APIVersion (TypeMeta t)))]) ++
       [("metadata", json.Obj (ObjectMeta_members (ObjectMeta t)));
        ("status", AddressStatus_Marshal URL_String (Status t))])%list.
Proof.
  destruct t as [[k v] om st]. unfold AddressableType_Marshal. cbn.
  unfold TypeMeta_members, embeddedMember, json.member. cbn.
  destruct (String.eqb k ""), (String.eqb v ""); reflexivity.
Qed.

(** X14.  A marshalled list always has an ["items"] member, and a list
    whose [Items] is nil writes it as [null], not as an empty array: the
    field is not tagged [omitempty]. *)
Theorem AddressableTypeList_Marshal_items
    (URL_String : apis.URL -> string)
    (ObjectMeta_members : metav1.ObjectMeta -> list (string * json.Value))
    (ListMeta_members : metav1.ListMeta -> list (string * json.Value))
    (l : AddressableTypeList) :
  exists before,
    AddressableTypeList_Marshal URL_String ObjectMeta_members ListMeta_members l
    = json.Obj
        (before ++
         [("metadata", json.Obj (ListMeta_members (ListMeta l)));
          ("items",
           match Items l with
           | Some items =>
               json.Arr (map (AddressableType_Marshal URL_String ObjectMeta_members) items)
           | None => json.Null
           end)])%list /\
    Forall (fun m => fst m = "kind" \/ fst m = "apiVersion") before.
Proof.
  destruct l as [[k v] lm items]. unfold AddressableTypeList_Marshal. cbn.
  unfold TypeMeta_members, embeddedMember, json.member. cbn.
  exists ((if String.eqb k "" then [] else [("kind", json.encodeString k)]) ++
          (if String.eqb v "" then []
           else [("apiVersion", json.encodeString v)]))%list.
  destruct (String.eqb k ""), (String.eqb v "");
    (split; [reflexivity|]);
    repeat first [ apply List.Forall_nil
                 | apply List.Forall_cons; [cbn; by (left + right)|] ].
Qed.
